(** * server.py: five static routes rendered from templates

    The program registers five URL rules on a Flask application, each
    bound to a view function that renders one template with no template
    variables, and starts the development server on port 5000 when it is
    executed as a script.

    The view functions, the route registrations and the entry point are
    embedded from [server.py].  The hosting framework (request matching,
    error pages, the template renderer, the listener) is a library that
    the program only imports; the parts of it that the properties below
    depend on are modelled from the specification and marked as such. *)

From Stdlib Require Import Ascii String.
From stdpp Require Import gmap strings list fin_maps.

Local Open Scope string_scope.
Local Open Scope Z_scope.

(** ** Conditions raised while a request is handled *)

Inductive exn : Type :=
| NotFound
| MethodNotAllowed
| TemplateNotFound (name : string)
| IOError (filename : string)
| KeyError (key : string).

(** A computation that either raises or returns. *)
Definition E (A : Type) : Type := exn + A.

Definition raise {A : Type} (e : exn) : E A := inl e.
Definition ret {A : Type} (a : A) : E A := inr a.
Definition bind {A B : Type} (m : E A) (k : A -> E B) : E B :=
  match m with
  | inl e => inl e
  | inr a => k a
  end.

Notation "x <- m ;; k" := (bind m (fun x => k))
  (at level 100, m at next level, right associativity).

(** ** Requests and responses *)

Record request : Type := {
  method : string;
  path : string;
  args : list (string * string);
  headers : list (string * string);
  data : string;
}.

Record response : Type := {
  status_code : Z;
  body : string;
}.

(** Keyword arguments handed to the renderer: the template variables. *)
Definition context : Type := list (string * string).

(** ** The application object *)

Record Rule : Type := {
  rule : string;
  endpoint : string;
  methods : list string;
}.

(** A Python function object: its [__name__] and what calling it yields. *)
Record view (R : Type) : Type := {
  fn_name : string;
  fn_call : R;
}.
Arguments fn_name {R} _.
Arguments fn_call {R} _.

Record Flask (R : Type) : Type := {
  import_name : string;
  url_map : list Rule;
  view_functions : gmap string (view R);
  error_handler_spec : gmap Z (exn -> response);
}.
Arguments import_name {R} _.
Arguments url_map {R} _.
Arguments view_functions {R} _.
Arguments error_handler_spec {R} _.

(** Modelled from the spec: the framework's application constructor, which
    is not part of the repository.  A fresh application has an empty route
    table and no error handlers (spec section 3: the table is populated
    at process start). *)
Definition Flask_ {R : Type} (name : string) : Flask R :=
  {| import_name := name; url_map := []; view_functions := ∅;
     error_handler_spec := ∅ |}.

(** Modelled from the spec: the framework's route registration, which is
    not part of the repository.  One registration adds one route entry
    (spec section 3), keyed by the handler's name, and leaves everything
    else alone. *)
Definition add_url_rule {R : Type} (rule_ endpoint_ : string) (view_func : view R)
    (methods_ : list string) (a : Flask R) : Flask R :=
  {| import_name := import_name a;
     url_map := (url_map a ++ [ {| rule := rule_; endpoint := endpoint_;
                                   methods := methods_ |} ])%list;
     view_functions := <[endpoint_ := view_func]> (view_functions a);
     error_handler_spec := error_handler_spec a |}.

(** Modelled from the spec: the [route] decorator of the framework.  The
    routes are GET routes (spec section 6), the endpoint is the decorated
    function's name. *)
Definition route {R : Type} (rule_ : string) (f : view R) (a : Flask R) : Flask R :=
  add_url_rule rule_ (fn_name f) f ["GET"] a.

(** ** The listener started by [run] *)

Record listener : Type := {
  host : string;
  port : Z;
}.

(** Modelled from the spec: the framework's [run], which is not part of the
    repository; it starts an HTTP listener on the given port (spec
    section 6). *)
Definition run {R : Type} (a : Flask R) (host_ : option string) (port_ : option Z) : listener :=
  {| host := default "127.0.0.1" host_; port := default 5000 port_ |}.

(** What a process can read from its surroundings when it starts. *)
Record environ : Type := {
  argv : list string;
  getenv : gmap string string;
  config_files : gmap string string;
}.

(** ** server.py *)

Section server.
Context {R : Type}.

(** [from flask import render_template] *)
Variable render_template : string -> context -> R.

(** The module's [__name__]. *)
Variable name__ : string.

Definition index : view R :=
  {| fn_name := "index"; fn_call := render_template "index.html" [] |}.

Definition art_museum : view R :=
  {| fn_name := "art_museum"; fn_call := render_template "art_museum.html" [] |}.

Definition checkers : view R :=
  {| fn_name := "checkers"; fn_call := render_template "checkers.html" [] |}.

Definition drawing : view R :=
  {| fn_name := "drawing"; fn_call := render_template "drawing.html" [] |}.

Definition flightsim : view R :=
  {| fn_name := "flightsim"; fn_call := render_template "flightsim.html" [] |}.

(** The module body up to the entry point: the application after the
    five decorators have run, in source order. *)
Definition app : Flask R :=
  let app := Flask_ name__ in
  let app := route "/" index app in
  let app := route "/templates/art_museum.html" art_museum app in
  let app := route "/templates/checkers.html" checkers app in
  let app := route "/templates/drawing.html" drawing app in
  let app := route "/templates/flightsim.html" flightsim app in
  app.

(** [if __name__=='__main__': app.run(port=5000)] *)
Definition main (os : environ) : option listener :=
  if String.eqb name__ "__main__" then Some (run app None (Some 5000))
  else None.
End server.

(** ** The template renderer *)

(** A template file as the renderer finds it on disk. *)
Inductive file : Type :=
| Readable (contents : string)
| Unreadable.

Section renderer.
(** The template engine proper: out of scope, any function from a
    template's source and the template variables to a document. *)
Variable resolve : string -> context -> string.

(** Modelled from the spec: the template renderer of the framework, which
    is not part of the repository.  Given a template identifier it
    returns the resolved document, or fails when the file is missing or
    unreadable (spec section 6). *)
Definition flask_render_template (name : string) (ctx : context)
    (templates : gmap string file) : E string :=
  match templates !! name with
  | None => raise (TemplateNotFound name)
  | Some Unreadable => raise (IOError name)
  | Some (Readable source) => ret (resolve source ctx)
  end.
End renderer.

(** A renderer that only records what it was called with. *)
Definition recording_renderer (name : string) (ctx : context) : string * context :=
  (name, ctx).

(** ** Dispatch *)

(** Modelled from the spec: the framework's request matching, which is not
    part of the repository.  Exact string match of the request path
    against the table, the first entry that allows the method wins; no
    entry for the path is [NotFound], entries for the path but none for
    the method is [MethodNotAllowed] (spec sections 4.1, 6 and 8). *)
Definition match_request (m : list Rule) (method_ path_ : string) : E string :=
  match filter (λ r, rule r = path_) m with
  | [] => raise NotFound
  | candidates =>
      match List.find (λ r, bool_decide (method_ ∈ methods r)) candidates with
      | Some r => ret (endpoint r)
      | None => raise MethodNotAllowed
      end
  end.

(** Modelled from the spec: the framework calls the handler registered for
    the matched entry and hands back what it returns or raises. *)
Definition dispatch_request (a : Flask (gmap string file -> E string))
    (templates : gmap string file) (req : request) : E string :=
  ep <- match_request (url_map a) (method req) (path req);;
  match view_functions a !! ep with
  | Some f => fn_call f templates
  | None => raise (KeyError ep)
  end.

(** Modelled from the spec: the status a condition is reported with by
    the framework (spec sections 7 and 8). *)
Definition code (e : exn) : Z :=
  match e with
  | NotFound => 404
  | MethodNotAllowed => 405
  | TemplateNotFound _ | IOError _ | KeyError _ => 500
  end.

(** Modelled from the spec: the framework's stock page for a condition
    (spec section 7: generic not-found and server-error pages). *)
Definition stock_page (e : exn) : response :=
  {| status_code := code e;
     body := match e with
             | NotFound => "Not Found"
             | MethodNotAllowed => "Method Not Allowed"
             | TemplateNotFound _ | IOError _ | KeyError _ => "Internal Server Error"
             end |}.

(** Modelled from the spec: [handle(request) -> response] (spec section
    4.1).  A returned document is a success response; a raised condition
    goes to the handler registered for its status if the application has
    one, and to the framework's stock page otherwise. *)
Definition handle (a : Flask (gmap string file -> E string))
    (templates : gmap string file) (req : request) : response :=
  match dispatch_request a templates req with
  | inr html => {| status_code := 200; body := html |}
  | inl e =>
      match error_handler_spec a !! code e with
      | Some h => h e
      | None => stock_page e
      end
  end.

(** ** The running process *)

Record server : Type := {
  application : Flask (gmap string file -> E string);
  template_folder : gmap string file;
}.

(** Modelled from the spec: one request handled by the running process
    (spec sections 4.1 and 5), giving the response and the process state
    afterwards.  The handlers get neither the application nor the
    template folder to write to. *)
Definition serve (s : server) (req : request) : server * response :=
  (s, handle (application s) (template_folder s) req).

Fixpoint serve_all (s : server) (reqs : list request) : server * list response :=
  match reqs with
  | [] => (s, [])
  | req :: reqs' =>
      let '(s1, resp) := serve s req in
      let '(s2, resps) := serve_all s1 reqs' in
      (s2, resp :: resps)
  end.

(** The process after the module body has run against a template folder. *)
Definition start (resolve : string -> context -> string) (name__ : string)
    (templates : gmap string file) : server :=
  {| application := app (flask_render_template resolve) name__;
     template_folder := templates |}.

(** ** The route table as data *)

(** Each entry's path with what its handler yields. *)
Definition route_table {R : Type} (a : Flask R) : list (string * option R) :=
  (λ r, (rule r, fn_call <$> view_functions a !! endpoint r)) <$> url_map a.

(** The part of a path after its last slash. *)
Fixpoint last_segment (p : string) : string :=
  match p with
  | EmptyString => EmptyString
  | String c p' =>
      if Ascii.eqb c "/"%char then last_segment p'
      else if bool_decide ("/"%char ∈ list_ascii_of_string p') then last_segment p'
      else p
  end.

(** The five registered paths with the template each is mapped to, as the
    specification lists them (sections 4.1 and 8). *)
Definition registered : list (string * string) :=
  [ ("/", "index.html");
    ("/templates/art_museum.html", "art_museum.html");
    ("/templates/checkers.html", "checkers.html");
    ("/templates/drawing.html", "drawing.html");
    ("/templates/flightsim.html", "flightsim.html") ].

(** The application with its table's entries in another order. *)
Definition with_url_map {R : Type} (m : list Rule) (a : Flask R) : Flask R :=
  {| import_name := import_name a; url_map := m;
     view_functions := view_functions a;
     error_handler_spec := error_handler_spec a |}.

(** ** Handlers in their request context *)

(** A computation run while a request is handled.  The framework runs a
    handler, and whatever the handler calls, with the request at hand and
    inside the process: such a computation can read the request it is run
    for, and read and write the state of the process (module globals, the
    files on disk). *)
Definition in_request (S A : Type) : Type := request → S → S * E A.

(** Modelled from the spec: the renderer of spec section 6 as a computation
    in a request context.  It reads the template folder, writes nothing and
    reads nothing of the request. *)
Definition render_in_request (resolve : string → context → string)
    (name : string) (ctx : context) : in_request (gmap string file) string :=
  λ _ templates, (templates, flask_render_template resolve name ctx templates).

(** Modelled from the spec: dispatch with the handler run in its request
    context.  Matching is as in [dispatch_request]; the matched handler is
    run for the request on the state of the process, and leaves a state
    behind. *)
Definition dispatch_in_request {S : Type} (a : Flask (in_request S string))
    : in_request S string :=
  λ req st,
    match match_request (url_map a) (method req) (path req) with
    | inl e => (st, inl e)
    | inr ep =>
        match view_functions a !! ep with
        | Some f => fn_call f req st
        | None => (st, inl (KeyError ep))
        end
    end.

(** Modelled from the spec: [handle(request) -> response] (spec section
    4.1) with the handler run in its request context; the outcome is
    turned into a response as in [handle]. *)
Definition handle_in_request {S : Type} (a : Flask (in_request S string))
    (req : request) (st : S) : S * response :=
  let '(st', r) := dispatch_in_request a req st in
  (st', match r with
        | inr html => {| status_code := 200; body := html |}
        | inl e =>
            match error_handler_spec a !! code e with
            | Some h => h e
            | None => stock_page e
            end
        end).

(** Requests served one after the other, each on the state the one before
    it left. *)
Fixpoint serve_in_request {S : Type} (a : Flask (in_request S string))
    (reqs : list request) (st : S) : S * list response :=
  match reqs with
  | [] => (st, [])
  | req :: reqs' =>
      let '(st1, resp) := handle_in_request a req st in
      let '(st2, resps) := serve_in_request a reqs' st1 in
      (st2, resp :: resps)
  end.

(** * Properties *)

(** ** The table and the handlers after the module body has run *)

Example route_table_app nm :
  route_table (app recording_renderer nm)
  = (λ '(p, t), (p, Some (t, []))) <$> registered.
Proof. vm_compute. reflexivity. Qed.

Example last_segment_ex : last_segment "/templates/checkers.html" = "checkers.html".
Proof. reflexivity. Qed.

Example last_segment_root : last_segment "/" = EmptyString.
Proof. reflexivity. Qed.

Lemma url_map_app {R : Type} (rt : string → context → R) nm :
  url_map (app rt nm)
  = [ {| rule := "/"; endpoint := "index"; methods := ["GET"] |};
      {| rule := "/templates/art_museum.html"; endpoint := "art_museum";
         methods := ["GET"] |};
      {| rule := "/templates/checkers.html"; endpoint := "checkers";
         methods := ["GET"] |};
      {| rule := "/templates/drawing.html"; endpoint := "drawing";
         methods := ["GET"] |};
      {| rule := "/templates/flightsim.html"; endpoint := "flightsim";
         methods := ["GET"] |} ].
Proof. reflexivity. Qed.

Lemma paths_app {R : Type} (rt : string → context → R) nm :
  rule <$> url_map (app rt nm) = registered.*1.
Proof. reflexivity. Qed.

Lemma view_functions_app {R : Type} (rt : string → context → R) nm :
  view_functions (app rt nm)
  = <["flightsim" := flightsim rt]> (<["drawing" := drawing rt]>
      (<["checkers" := checkers rt]> (<["art_museum" := art_museum rt]>
        (<["index" := index rt]> ∅)))).
Proof. reflexivity. Qed.

Lemma view_functions_app_Some {R : Type} (rt : string → context → R) nm ep f :
  view_functions (app rt nm) !! ep = Some f →
  f ∈ [index rt; art_museum rt; checkers rt; drawing rt; flightsim rt].
Proof.
  rewrite view_functions_app.
  rewrite !lookup_insert_Some, lookup_empty.
  intros [[_ <-]|[_ [[_ <-]|[_ [[_ <-]|[_ [[_ <-]|[_ [[_ <-]|[_ ?]]]]]]]]]];
    [repeat constructor .. | done].
Qed.

Lemma error_handler_spec_app {R : Type} (rt : string → context → R) nm :
  error_handler_spec (app rt nm) = ∅.
Proof. reflexivity. Qed.

(** ** Matching *)

Lemma filter_rule_absent (m : list Rule) (p : string) :
  p ∉ rule <$> m → filter (λ r, rule r = p) m = [].
Proof.
  induction m as [|r m IH]; intros Hp; [done|].
  rewrite fmap_cons, not_elem_of_cons in Hp. destruct Hp as [Hne Hp].
  rewrite filter_cons_False by congruence. auto.
Qed.

Lemma filter_rule_unique (m : list Rule) (p : string) :
  NoDup (rule <$> m) → (length (filter (λ r, rule r = p) m) ≤ 1)%nat.
Proof.
  induction m as [|r m IH]; intros Hnd; [simpl; lia|].
  rewrite fmap_cons, NoDup_cons in Hnd. destruct Hnd as [Hr Hnd].
  destruct (decide (rule r = p)) as [Heq|Hne].
  - rewrite filter_cons_True by done.
    rewrite filter_rule_absent by (by rewrite <- Heq). simpl; lia.
  - rewrite filter_cons_False by done. auto.
Qed.

Lemma match_request_absent (m : list Rule) (me p : string) :
  p ∉ rule <$> m → match_request m me p = inl NotFound.
Proof. intros Hp. unfold match_request. by rewrite filter_rule_absent. Qed.

Lemma match_request_Permutation (m m' : list Rule) (me p : string) :
  NoDup (rule <$> m) → m ≡ₚ m' →
  match_request m' me p = match_request m me p.
Proof.
  intros Hnd Hperm. unfold match_request.
  pose proof (filter_rule_unique m p Hnd) as Hlen.
  assert (filter (λ r, rule r = p) m ≡ₚ filter (λ r, rule r = p) m') as Hf
    by (by rewrite Hperm).
  destruct (filter (λ r, rule r = p) m) as [|r [|r' l]].
  - apply Permutation_nil_l in Hf. by rewrite <- Hf.
  - apply Permutation_singleton_l in Hf. by rewrite <- Hf.
  - simpl in Hlen; lia.
Qed.

Lemma NoDup_paths_app {R : Type} (rt : string → context → R) nm :
  NoDup (rule <$> url_map (app rt nm)).
Proof. rewrite paths_app. apply (bool_decide_unpack _). vm_compute. exact I. Qed.

Lemma match_request_registered {R : Type} (rt : string → context → R) nm p t :
  (p, t) ∈ registered →
  ∃ f, match_request (url_map (app rt nm)) "GET" p = inr (fn_name f)
       ∧ view_functions (app rt nm) !! fn_name f = Some f
       ∧ fn_call f = rt t [].
Proof.
  unfold registered. rewrite !elem_of_cons, elem_of_nil.
  intros [H|[H|[H|[H|[H|[]]]]]]; injection H as -> ->.
  - exists (index rt). by repeat split.
  - exists (art_museum rt). by repeat split.
  - exists (checkers rt). by repeat split.
  - exists (drawing rt). by repeat split.
  - exists (flightsim rt). by repeat split.
Qed.

(** ** Dispatch on the deployed application *)

Lemma dispatch_request_registered resolve nm p t templates req :
  (p, t) ∈ registered → method req = "GET" → path req = p →
  dispatch_request (app (flask_render_template resolve) nm) templates req
  = flask_render_template resolve t [] templates.
Proof.
  intros Hreg Hm Hp. unfold dispatch_request. rewrite Hm, Hp.
  destruct (match_request_registered (flask_render_template resolve) nm p t Hreg)
    as (f & -> & Hf & Hcall).
  unfold bind. by rewrite Hf, Hcall.
Qed.

Lemma dispatch_request_unregistered resolve nm templates req :
  path req ∉ registered.*1 →
  dispatch_request (app (flask_render_template resolve) nm) templates req
  = inl NotFound.
Proof.
  intros Hp. unfold dispatch_request.
  rewrite match_request_absent; [done|]. by rewrite paths_app.
Qed.

Lemma handle_raised resolve nm templates req e :
  dispatch_request (app (flask_render_template resolve) nm) templates req = inl e →
  handle (app (flask_render_template resolve) nm) templates req = stock_page e.
Proof.
  intros He. unfold handle. rewrite He, error_handler_spec_app.
  by rewrite lookup_empty.
Qed.

Lemma handle_returned (a : Flask (gmap string file → E string)) templates req html :
  dispatch_request a templates req = inr html →
  handle a templates req = {| status_code := 200; body := html |}.
Proof. intros He. unfold handle. by rewrite He. Qed.

(** ** The claims *)

(** C1. A GET request whose path is one of the five registered paths is
    answered with status 200 and, as body, the document the renderer
    produces for the template mapped to that path ([index.html] for [/],
    the like-named template for the four [/templates/...] paths),
    whenever the renderer produces one. *)
Theorem registered_path_renders resolve nm templates req p t html :
  (p, t) ∈ registered →
  method req = "GET" →
  path req = p →
  flask_render_template resolve t [] templates = inr html →
  handle (app (flask_render_template resolve) nm) templates req
  = {| status_code := 200; body := html |}.
Proof.
  intros Hreg Hm Hp Hhtml. apply handle_returned.
  by rewrite (dispatch_request_registered resolve nm p t).
Qed.

Lemma registered_path_renders_witness :
  handle (app (flask_render_template (λ source _, source)) "__main__")
    {[ "checkers.html" := Readable "<html>checkers</html>" ]}
    {| method := "GET"; path := "/templates/checkers.html"; args := [];
       headers := []; data := EmptyString |}
  = {| status_code := 200; body := "<html>checkers</html>" |}.
Proof.
  apply (registered_path_renders _ _ _ _ "/templates/checkers.html" "checkers.html").
  - unfold registered. do 2 right. left.
  - reflexivity.
  - reflexivity.
  - reflexivity.
Defined.

(** C2. A GET request whose path is none of the five registered paths makes
    the dispatcher raise [NotFound]; no template is rendered, the
    application has no error handler of its own, and the response is the
    framework's stock not-found page with status 404. *)
Theorem unregistered_path_not_found resolve nm templates req :
  method req = "GET" →
  path req ∉ registered.*1 →
  dispatch_request (app (flask_render_template resolve) nm) templates req
    = inl NotFound
  ∧ error_handler_spec (app (flask_render_template resolve) nm) = ∅
  ∧ handle (app (flask_render_template resolve) nm) templates req
    = stock_page NotFound
  ∧ status_code (handle (app (flask_render_template resolve) nm) templates req)
    = 404.
Proof.
  intros _ Hp.
  pose proof (dispatch_request_unregistered resolve nm templates req Hp) as Hd.
  pose proof (handle_raised resolve nm templates req NotFound Hd) as Hh.
  repeat split; [done..|]. by rewrite Hh.
Qed.

Lemma unregistered_path_not_found_witness :
  status_code
    (handle (app (flask_render_template (λ source _, source)) "__main__")
       {[ "index.html" := Readable "<html>home</html>" ]}
       {| method := "GET"; path := "/nonexistent"; args := [];
          headers := []; data := EmptyString |})
  = 404.
Proof.
  apply (unregistered_path_not_found (λ source _, source) "__main__"
           {[ "index.html" := Readable "<html>home</html>" ]}
           {| method := "GET"; path := "/nonexistent"; args := [];
              headers := []; data := EmptyString |}).
  - reflexivity.
  - apply (bool_decide_unpack _). vm_compute. exact I.
Defined.

(** C3. Every handler registered on the application calls the renderer
    with a template name and an empty set of template variables, and
    yields exactly what that call yields; this holds for any renderer, so
    also for one that records its arguments. *)
Theorem handlers_pass_no_variables {R : Type} (rt : string → context → R) nm ep f :
  view_functions (app rt nm) !! ep = Some f →
  ∃ name, name ∈ registered.*2 ∧ fn_call f = rt name [].
Proof.
  intros Hf. apply view_functions_app_Some in Hf.
  rewrite !elem_of_cons, elem_of_nil in Hf.
  destruct Hf as [->|[->|[->|[->|[->|[]]]]]]; eexists; (split; [|reflexivity]);
    apply (bool_decide_unpack _); vm_compute; exact I.
Qed.

Lemma handlers_pass_no_variables_witness :
  ∃ name, name ∈ registered.*2
          ∧ fn_call (drawing recording_renderer) = (name, []).
Proof.
  apply (handlers_pass_no_variables recording_renderer "__main__" "drawing").
  reflexivity.
Defined.

Lemma registered_handler_call {R : Type} (rt : string → context → R) nm ep f :
  view_functions (app rt nm) !! ep = Some f → ∃ name, fn_call f = rt name [].
Proof.
  intros Hf. apply view_functions_app_Some in Hf.
  rewrite !elem_of_cons, elem_of_nil in Hf.
  destruct Hf as [->|[->|[->|[->|[->|[]]]]]]; eexists; reflexivity.
Qed.

(** With the renderer of the specification, handling a request in its
    context is [handle], and the template folder is left as it was. *)
Lemma handle_in_request_render resolve nm req templates :
  handle_in_request (app (render_in_request resolve) nm) req templates
  = (templates, handle (app (flask_render_template resolve) nm) templates req).
Proof.
  unfold handle_in_request, dispatch_in_request, handle, dispatch_request, bind.
  rewrite !url_map_app.
  destruct (match_request _ (method req) (path req)) as [e|ep]; [done|].
  rewrite !view_functions_app, !lookup_insert, lookup_empty.
  repeat case_decide; reflexivity.
Qed.

(** C4. The handlers run in the context of the request, where a handler
    could read the query parameters, the headers and the body.  Those of
    this program hand none of it on: for any renderer that itself does not
    look at the request beyond method and path, two requests with the same
    method and path get equal responses from the same process state,
    whatever their query parameters, headers and body. *)
Theorem handlers_ignore_request_data {S : Type}
    (rt : string → context → in_request S string) nm st m p q1 h1 d1 q2 h2 d2 :
  (∀ name ctx r1 r2 st',
     method r1 = method r2 → path r1 = path r2 →
     rt name ctx r1 st' = rt name ctx r2 st') →
  handle_in_request (app rt nm)
    {| method := m; path := p; args := q1; headers := h1; data := d1 |} st
  = handle_in_request (app rt nm)
    {| method := m; path := p; args := q2; headers := h2; data := d2 |} st.
Proof.
  intros Hblind. unfold handle_in_request, dispatch_in_request.
  cbn [method path].
  destruct (match_request _ m p) as [e|ep]; [reflexivity|].
  destruct (view_functions (app rt nm) !! ep) as [f|] eqn:Hf; [|reflexivity].
  destruct (registered_handler_call rt nm ep f Hf) as [name Hcall].
  destruct f as [fname fcall]. cbn [fn_call] in *. subst fcall.
  by rewrite (Hblind name []
    {| method := m; path := p; args := q1; headers := h1; data := d1 |}
    {| method := m; path := p; args := q2; headers := h2; data := d2 |}).
Qed.

Lemma handlers_ignore_request_data_witness :
  handle_in_request (app (render_in_request (λ source _, source)) "__main__")
    {| method := "GET"; path := "/"; args := [("q", "1")];
       headers := [("Accept", "text/html")]; data := "a" |}
    {[ "index.html" := Readable "<html>home</html>" ]}
  = handle_in_request (app (render_in_request (λ source _, source)) "__main__")
    {| method := "GET"; path := "/"; args := [("q", "2")];
       headers := []; data := "b" |}
    {[ "index.html" := Readable "<html>home</html>" ]}.
Proof.
  apply (handlers_ignore_request_data (render_in_request (λ source _, source))).
  intros name ctx r1 r2 st' _ _. reflexivity.
Defined.

Lemma serve_all_fixed (s : server) (reqs : list request) :
  (serve_all s reqs).1 = s.
Proof.
  induction reqs as [|req reqs IH]; [done|]. simpl.
  destruct (serve_all s reqs) as [s2 resps]. exact IH.
Qed.

Lemma handle_in_request_state {S : Type}
    (rt : string → context → in_request S string) nm req st :
  (∀ name ctx r st', (rt name ctx r st').1 = st') →
  (handle_in_request (app rt nm) req st).1 = st.
Proof.
  intros Hpure. unfold handle_in_request, dispatch_in_request.
  destruct (match_request _ (method req) (path req)) as [e|ep]; [reflexivity|].
  destruct (view_functions (app rt nm) !! ep) as [f|] eqn:Hf; [|reflexivity].
  destruct (registered_handler_call rt nm ep f Hf) as [name Hcall].
  destruct f as [fname fcall]. cbn [fn_call] in *. subst fcall.
  specialize (Hpure name [] req st).
  by destruct (rt name [] req st).
Qed.

(** C5. The handlers run inside the process, where a handler could write
    the state the next request is served from.  Those of this program only
    call the renderer: for any renderer that leaves the process state
    (template files included) as it found it, the same request served
    twice in succession gets the same response both times, and the state
    is left as it was. *)
Theorem repeated_request_same_response {S : Type}
    (rt : string → context → in_request S string) nm st req :
  (∀ name ctx r st', (rt name ctx r st').1 = st') →
  ∃ resp, serve_in_request (app rt nm) [req; req] st = (st, [resp; resp]).
Proof.
  intros Hpure.
  pose proof (handle_in_request_state rt nm req st Hpure) as Hst.
  exists (handle_in_request (app rt nm) req st).2.
  cbn [serve_in_request].
  destruct (handle_in_request (app rt nm) req st) as [st1 resp] eqn:H1.
  simpl in Hst. subst st1. by rewrite H1.
Qed.

Lemma repeated_request_same_response_witness :
  ∃ resp,
    serve_in_request (app (render_in_request (λ source _, source)) "__main__")
      [ {| method := "GET"; path := "/templates/drawing.html"; args := [];
           headers := []; data := EmptyString |};
        {| method := "GET"; path := "/templates/drawing.html"; args := [];
           headers := []; data := EmptyString |} ]
      {[ "drawing.html" := Readable "<html>drawing</html>" ]}
    = ({[ "drawing.html" := Readable "<html>drawing</html>" ]}, [resp; resp]).
Proof.
  apply (repeated_request_same_response
           (render_in_request (λ source _, source)) "__main__").
  intros name ctx r st'. reflexivity.
Defined.

(** C6. The route table built by the module body has pairwise distinct
    paths; it is filled by the five registrations on an empty table, and
    serving any sequence of requests leaves the application, and so the
    table, as it was. *)
Theorem route_table_unique_and_fixed resolve nm templates reqs :
  url_map (Flask_ (R := gmap string file → E string) nm) = []
  ∧ NoDup (rule <$> url_map (app (flask_render_template resolve) nm))
  ∧ length (url_map (app (flask_render_template resolve) nm)) = 5%nat
  ∧ application (serve_all (start resolve nm templates) reqs).1
    = app (flask_render_template resolve) nm
  ∧ NoDup (rule <$> url_map
             (application (serve_all (start resolve nm templates) reqs).1)).
Proof.
  rewrite serve_all_fixed.
  split; [reflexivity|]. split; [apply NoDup_paths_app|].
  split; [reflexivity|]. split; [reflexivity|].
  apply (NoDup_paths_app (flask_render_template resolve) nm).
Qed.

(** C7. When rendering the template of a registered path fails, the
    dispatcher raises exactly the renderer's condition: [TemplateNotFound]
    for a missing file, [IOError] for an unreadable one.  The application
    has no error handler, so the response is the framework's stock
    server-error page.  Every request either yields a whole document with
    status 200 or a raised condition with its stock page. *)
Theorem render_failure_propagates resolve nm templates req p t :
  (p, t) ∈ registered →
  method req = "GET" →
  path req = p →
  let a := app (flask_render_template resolve) nm in
  dispatch_request a templates req = flask_render_template resolve t [] templates
  ∧ (templates !! t = None →
     dispatch_request a templates req = inl (TemplateNotFound t)
     ∧ handle a templates req = stock_page (TemplateNotFound t))
  ∧ (templates !! t = Some Unreadable →
     dispatch_request a templates req = inl (IOError t)
     ∧ handle a templates req = stock_page (IOError t))
  ∧ error_handler_spec a = ∅
  ∧ (∀ req',
       (∃ html, dispatch_request a templates req' = inr html
                ∧ handle a templates req'
                  = {| status_code := 200; body := html |})
       ∨ (∃ e, dispatch_request a templates req' = inl e
               ∧ handle a templates req' = stock_page e)).
Proof.
  intros Hreg Hm Hp a.
  pose proof (dispatch_request_registered resolve nm p t templates req Hreg Hm Hp)
    as Hd.
  split; [exact Hd|]. split; [|split; [|split; [done|]]].
  - intros Ht.
    assert (dispatch_request a templates req = inl (TemplateNotFound t)) as He
      by (subst a; rewrite Hd; unfold flask_render_template; by rewrite Ht).
    split; [exact He|]. by apply handle_raised.
  - intros Ht.
    assert (dispatch_request a templates req = inl (IOError t)) as He
      by (subst a; rewrite Hd; unfold flask_render_template; by rewrite Ht).
    split; [exact He|]. by apply handle_raised.
  - intros req'. destruct (dispatch_request a templates req') as [e|html] eqn:He.
    + right. exists e. split; [done|]. by apply handle_raised.
    + left. exists html. split; [done|]. by apply handle_returned.
Qed.

Lemma render_failure_propagates_witness :
  dispatch_request (app (flask_render_template (λ source _, source)) "__main__")
    {[ "index.html" := Readable "<html>home</html>";
       "drawing.html" := Unreadable ]}
    {| method := "GET"; path := "/templates/flightsim.html"; args := [];
       headers := []; data := EmptyString |}
  = inl (TemplateNotFound "flightsim.html").
Proof.
  refine (proj1 (proj1 (proj2 (render_failure_propagates (λ source _, source)
    "__main__" {[ "index.html" := Readable "<html>home</html>";
                  "drawing.html" := Unreadable ]}
    {| method := "GET"; path := "/templates/flightsim.html"; args := [];
       headers := []; data := EmptyString |}
    "/templates/flightsim.html" "flightsim.html" _ _ _)) _)).
  - unfold registered. do 4 right. left.
  - reflexivity.
  - reflexivity.
  - reflexivity.
Defined.

(** C8. Executed as a script, the program starts a listener on port 5000
    whatever the command line, the environment variables and the
    configuration files are; nothing the process can read from its
    surroundings changes what it starts. *)
Theorem main_listens_on_5000 {R : Type} (rt : string → context → R) nm os os' :
  port <$> main rt "__main__" os = Some 5000
  ∧ main rt nm os = main rt nm os'.
Proof. split; reflexivity. Qed.

(** C9. Matching does not depend on the order of the table: against any
    permutation of the application's entries every method and path match
    as they do against the table itself, and the application with the
    permuted table answers every request alike. *)
Theorem dispatch_order_independent resolve nm (m' : list Rule) :
  url_map (app (flask_render_template resolve) nm) ≡ₚ m' →
  (∀ me p, match_request m' me p
           = match_request (url_map (app (flask_render_template resolve) nm)) me p)
  ∧ (∀ templates req,
       handle (with_url_map m' (app (flask_render_template resolve) nm))
         templates req
       = handle (app (flask_render_template resolve) nm) templates req).
Proof.
  intros Hperm.
  assert (∀ me p, match_request m' me p
    = match_request (url_map (app (flask_render_template resolve) nm)) me p) as Hm.
  { intros me p. apply match_request_Permutation; [|done].
    apply NoDup_paths_app. }
  split; [exact Hm|]. intros templates req.
  unfold handle, dispatch_request. cbn [with_url_map url_map view_functions error_handler_spec].
  by rewrite Hm.
Qed.

Lemma dispatch_order_independent_witness :
  match_request
    (reverse (url_map (app (flask_render_template (λ source _, source)) "__main__")))
    "GET" "/templates/drawing.html"
  = match_request
      (url_map (app (flask_render_template (λ source _, source)) "__main__"))
      "GET" "/templates/drawing.html".
Proof.
  apply (dispatch_order_independent (λ source _, source) "__main__").
  symmetry. apply reverse_Permutation.
Defined.

(** C10. In the route table, the template rendered for a path under
    [/templates/] is the path's final segment, and there are four such
    paths; the root path is the only entry whose template is not its
    final segment, and it renders [index.html]. *)
Theorem template_is_final_segment nm p t ctx :
  (p, Some (t, ctx)) ∈ route_table (app recording_renderer nm) →
  (String.prefix "/templates/" p = true → t = last_segment p)
  ∧ (p = "/" → t = "index.html")
  ∧ (t ≠ last_segment p → p = "/")
  ∧ length (filter (λ e, String.prefix "/templates/" e.1 = true)
              (route_table (app recording_renderer nm))) = 4%nat.
Proof.
  rewrite route_table_app. unfold registered.
  rewrite !fmap_cons, fmap_nil, !elem_of_cons, elem_of_nil.
  intros [H|[H|[H|[H|[H|[]]]]]]; injection H as -> -> ->;
    (split_and!; [done..|]); vm_compute; reflexivity.
Qed.

Lemma template_is_final_segment_witness :
  "art_museum.html" = last_segment "/templates/art_museum.html".
Proof.
  refine (proj1 (template_is_final_segment "__main__"
    "/templates/art_museum.html" "art_museum.html" [] _) _).
  - apply (bool_decide_unpack _). vm_compute. exact I.
  - reflexivity.
Defined.

(** ** Further properties of the module body *)

(** X2. The five handler names are pairwise distinct, so no registration
    replaces another's handler: every entry of the table resolves to a
    handler, and that handler carries the entry's endpoint as its name. *)
Theorem endpoints_resolve {R : Type} (rt : string → context → R) nm r :
  r ∈ url_map (app rt nm) →
  NoDup (endpoint <$> url_map (app rt nm))
  ∧ ∃ f, view_functions (app rt nm) !! endpoint r = Some f
         ∧ fn_name f = endpoint r.
Proof.
  intros Hr. split.
  - rewrite url_map_app. apply (bool_decide_unpack _). vm_compute. exact I.
  - rewrite url_map_app in Hr. rewrite !elem_of_cons, elem_of_nil in Hr.
    destruct Hr as [->|[->|[->|[->|[->|[]]]]]].
    + by exists (index rt).
    + by exists (art_museum rt).
    + by exists (checkers rt).
    + by exists (drawing rt).
    + by exists (flightsim rt).
Qed.

Lemma endpoints_resolve_witness :
  ∃ f, view_functions (app recording_renderer "__main__") !! "checkers" = Some f
       ∧ fn_name f = "checkers".
Proof.
  refine (proj2 (endpoints_resolve recording_renderer "__main__"
    {| rule := "/templates/checkers.html"; endpoint := "checkers";
       methods := ["GET"] |} _)).
  rewrite url_map_app. do 2 right. left.
Defined.

(** X3. No two routes render the same template: two entries of the table
    whose handlers render the same template name have the same path. *)
Theorem distinct_paths_distinct_templates nm p1 p2 t ctx1 ctx2 :
  (p1, Some (t, ctx1)) ∈ route_table (app recording_renderer nm) →
  (p2, Some (t, ctx2)) ∈ route_table (app recording_renderer nm) →
  p1 = p2.
Proof.
  rewrite route_table_app. unfold registered.
  rewrite !fmap_cons, fmap_nil, !elem_of_cons, !elem_of_nil.
  intros [H1|[H1|[H1|[H1|[H1|[]]]]]] [H2|[H2|[H2|[H2|[H2|[]]]]]];
    simplify_eq; reflexivity.
Qed.

Lemma distinct_paths_distinct_templates_witness :
  "/templates/drawing.html" = "/templates/drawing.html".
Proof.
  apply (distinct_paths_distinct_templates "__main__" _ _ "drawing.html" [] []);
    apply (bool_decide_unpack _); vm_compute; exact I.
Defined.
